(** * useAutonomousAI: the autonomous-decision hook

    Shallow embedding of [src/hooks/useAutonomousAI.ts].

    The hook watches three analysis payloads, derives the decision
    factors (with a market-noise score computed from the pattern results),
    schedules the decision after 1500 ms, enriches it with a risk
    evaluation and a backtest, and shows one toast.

    Modelling choices, which hold for the whole file:
    - a JS number is an exact rational ([Q]); the arithmetic the hook does
      on numbers is a subtraction, an absolute value, a comparison with
      0.3, one division of two array lengths and one product by 100;
    - a JS object used as a dictionary is a [gmap string _];
    - a value that may be [null] or [undefined] is an [option];
    - React state is threaded explicitly, side effects on collaborators
      are recorded in a trace, and a thrown value is a result of the
      computation ([Thrown]). *)

From Stdlib Require Import QArith Qabs Qminmax Qround String Ascii DecimalString.
From stdpp Require Import gmap strings list fin_maps.

Open Scope Q_scope.

(** ** JavaScript primitives used by the hook *)

(** A JS value the hook only passes along or throws, never inspects;
    an object or an array is kept as its JSON text. *)
Inductive JsValue : Type :=
  | JsUndefined
  | JsNull
  | JsBool (b : bool)
  | JsNumber (q : Q)
  | JsString (s : string)
  | JsObject (json : string).

(** [x || d] on an optional number: [undefined], [null] and [0] are falsy. *)
Definition or_default (x : option Q) (d : Q) : Q :=
  match x with
  | Some v => if Qeq_bool v 0 then d else v
  | None => d
  end.

(** Optional chaining: [x?.f] is [undefined] when [x] is nullish. *)
Definition optional_chain {A B : Type} (x : option A) (f : A -> option B)
    : option B :=
  match x with
  | Some a => f a
  | None => None
  end.

Notation "x ?. f" := (optional_chain x f) (at level 50, left associativity).

(** [a < b] on numbers. *)
Definition Qlt_bool (a b : Q) : bool :=
  if Qlt_le_dec a b then true else false.

(** [Object.values(o)] and [Object.keys(o)]. *)
Definition Object_values {V : Type} (o : gmap string V) : list V :=
  (map_to_list o).*2.

Definition Object_keys {V : Type} (o : gmap string V) : list string :=
  (map_to_list o).*1.

(** An array length as a number. *)
Definition number_of_nat (n : nat) : Q := inject_Z (Z.of_nat n).

(** [String.prototype.includes]. *)
Fixpoint includes (haystack needle : string) : bool :=
  String.prefix needle haystack ||
  match haystack with
  | EmptyString => false
  | String _ rest => includes rest needle
  end.

(** The runtime's [Number::toString]. Integers of magnitude below 10^21
    print as their decimal digits; the digits of any other number depend
    on its binary representation and are left to the runtime. *)
Class JsRuntime := {
  Number_toString : Q -> string;
  Number_toString_integer :
    forall (q : Q) (z : Z),
      q == inject_Z z -> (Z.abs z < 10 ^ 21)%Z ->
      Number_toString q = NilZero.string_of_int (Z.to_int z)
}.

(** ** Data model *)

(** An entry of [detailedResults]. *)
Record PatternResult := {
  found : bool;
  buyScore : option Q;
  sellScore : option Q
}.

(** ** calculateMarketNoise *)

(** The predicate of the second [filter]:
    [Math.abs((r.buyScore || 0) - (r.sellScore || 0)) < 0.3]. *)
Definition is_conflicting (r : PatternResult) : bool :=
  Qlt_bool (Qabs (or_default (buyScore r) 0 - or_default (sellScore r) 0)) 0.3.

Definition calculateMarketNoise
    (detailedResults : option (gmap string PatternResult)) : Q :=
  match detailedResults with
  | None => 50
  | Some results =>
      let patterns := List.filter found (Object_values results) in
      let conflicting := length (List.filter is_conflicting patterns) in
      Qmin 100
        (number_of_nat conflicting
           / number_of_nat (Nat.max 1 (length patterns)) * 100)
  end.

(** ** The payloads of the hook *)

(** [enhancedAnalysisResult.visualAnalysis], with the two nested numbers
    the hook reads through optional chaining. *)
Record PriceAction := {
  pa_volatility : option Q
}.

Record VisualAnalysis := {
  priceAction : option PriceAction;
  trendStrength : option Q
}.

(** The object literal [{}]. *)
Definition empty_visual_analysis : VisualAnalysis :=
  {| priceAction := None; trendStrength := None |}.

Record EnhancedAnalysis := {
  microPatterns : option (list JsValue);
  visualAnalysis : option VisualAnalysis;
  ea_timing : option JsValue
}.

(** An element of [fastAnalysisResults]. *)
Record FastAnalysisResult := {
  direction : string;
  fr_confidence : Q
}.

Record MarketConditions := {
  volatility : Q;
  noise : Q;
  trend_strength : Q
}.

Record DecisionFactors := {
  micro_patterns : list JsValue;
  visual_analysis : VisualAnalysis;
  market_conditions : MarketConditions;
  timing_analysis : JsValue;
  technical_indicators : gmap string PatternResult
}.

(** Modelled from the spec: the type [AutonomousDecision] is imported from
    [@/utils/autonomousDecision], which is not part of the sources; the
    fields and the two enumerations are those of the data model. *)
Inductive Action := BUY | SELL | WAIT.

Inductive MarketGrade := GradeA | GradeB | GradeC | GradeD.

Record Timing := {
  enter_now : bool;
  wait_seconds : Q
}.

Record ProfessionalAnalysis := {
  market_grade : MarketGrade;
  confluences : Q
}.

Record AutonomousDecision := {
  action : Action;
  confidence : Q;
  expected_success_rate : Q;
  timing : Timing;
  professional_analysis : ProfessionalAnalysis
}.

(** Modelled from the spec: [currentRisk] and [positionSizing] come from
    [useAdvancedTrading], which is not part of the sources; the hook
    prints one field of each, taken to be a number. *)
Record RiskAssessment := {
  totalRisk : Q
}.

Record PositionSizing := {
  recommendedSize : Q
}.

Global Instance Action_eq_dec : EqDecision Action.
Proof. solve_decision. Defined.

Global Instance MarketGrade_eq_dec : EqDecision MarketGrade.
Proof. solve_decision. Defined.

(** The text of a market grade, as [`${market_grade}`] prints it. *)
Definition grade_text (g : MarketGrade) : string :=
  match g with
  | GradeA => "A"
  | GradeB => "B"
  | GradeC => "C"
  | GradeD => "D"
  end.

(** The argument of [evaluateSignalRisk]: the decision spread into the
    object, followed by the six added properties. *)
Record RiskRequest := {
  rq_decision : AutonomousDecision;
  rq_timeframe : string;
  entry_price : Q;
  stop_loss : Q;
  take_profit : Q;
  rq_volatility : Q;
  rq_confluences : Q
}.

(** An element of the argument of [performBacktest]. *)
Record BacktestInput := {
  bt_action : Action;
  bt_confidence : Q;
  bt_confluences : Q;
  bt_timeframe : string
}.

(** A call of [toast.success], [toast.info], [toast.warning] or
    [toast.error]. *)
Inductive Severity := success | info | warning | error.

Record Notification := {
  severity : Severity;
  title : string;
  duration : option N;
  description : option string
}.

(** Everything the effect closes over in one render. *)
Record Render := {
  detailedResults : option (gmap string PatternResult);
  enhancedAnalysisResult : option EnhancedAnalysis;
  fastAnalysisResults : list FastAnalysisResult;
  selectedTimeframe : string;
  marketType : string;
  currentRisk : option RiskAssessment;
  positionSizing : option PositionSizing
}.

(** ** State, trace and the monad of the hook *)

(** The two [useState] cells. *)
Record HookState := {
  aiDecision : option AutonomousDecision;
  isProcessing : bool
}.

Definition initial_state : HookState :=
  {| aiDecision := None; isProcessing := false |}.

Inductive Event :=
  | ConsoleLog (message : string)
  | ConsoleError (message : string) (thrown : JsValue)
  | SetTimeout (delay : N)
  | Call_makeAutonomousDecision
      (factors : DecisionFactors) (timeframe market : string)
  | Call_evaluateSignalRisk (request : RiskRequest)
  | Call_performBacktest (signals : list BacktestInput)
  | Toast (n : Notification).

Record World := {
  hook : HookState;
  trace : list Event
}.

Inductive Outcome (A : Type) :=
  | Returned (a : A)
  | Thrown (thrown : JsValue).

Arguments Returned {A} a.
Arguments Thrown {A} thrown.

Definition M (A : Type) : Type := World -> Outcome A * World.

Global Instance M_ret : MRet M := fun A a w => (Returned a, w).

Global Instance M_bind : MBind M := fun A B k m w =>
  match m w with
  | (Returned a, w') => k a w'
  | (Thrown e, w') => (Thrown e, w')
  end.

(** [try { body } catch (error) { handler }]. *)
Definition try_catch {A : Type} (body : M A) (handler : JsValue -> M A) : M A :=
  fun w =>
    match body w with
    | (Returned a, w') => (Returned a, w')
    | (Thrown e, w') => handler e w'
    end.

Definition emit (e : Event) : M unit :=
  fun w => (Returned tt, {| hook := hook w; trace := trace w ++ [e] |}).

(** A call of a collaborator: it is recorded, and it returns or throws. *)
Definition call {A : Type} (e : Event) (result : Outcome A) : M A :=
  fun w => (result, {| hook := hook w; trace := trace w ++ [e] |}).

Definition setAiDecision (d : AutonomousDecision) : M unit :=
  fun w =>
    (Returned tt,
     {| hook := {| aiDecision := Some d; isProcessing := isProcessing (hook w) |};
        trace := trace w |}).

Definition setIsProcessing (b : bool) : M unit :=
  fun w =>
    (Returned tt,
     {| hook := {| aiDecision := aiDecision (hook w); isProcessing := b |};
        trace := trace w |}).

(** The external decision function and the two operations taken from
    [useAdvancedTrading]. Each may throw; [performBacktest] is awaited, so
    a rejected promise is a throw as well. *)
Class Collaborators := {
  makeAutonomousDecision :
    DecisionFactors -> string -> string -> Outcome AutonomousDecision;
  evaluateSignalRisk : RiskRequest -> Outcome JsValue;
  performBacktest : list BacktestInput -> Outcome unit
}.

(** ** The notification *)

Section Presenter.
Context {runtime : JsRuntime}.
Local Open Scope string_scope.

Definition actionText (decision : AutonomousDecision) : string :=
  match action decision with
  | BUY => "COMPRAR"
  | SELL => "VENDER"
  | WAIT => "AGUARDAR"
  end.

Definition emoji (decision : AutonomousDecision) : string :=
  match action decision with
  | BUY => "📈"
  | SELL => "📉"
  | WAIT => "⏳"
  end.

Definition gradeEmoji (decision : AutonomousDecision) : string :=
  match market_grade (professional_analysis decision) with
  | GradeA => "🏆"
  | GradeB => "🥈"
  | GradeC => "🥉"
  | GradeD => "📊"
  end.

Definition riskInfo (currentRisk : option RiskAssessment) : string :=
  match currentRisk with
  | Some r => " | Risco: " ++ Number_toString (totalRisk r)
  | None => ""
  end.

Definition positionInfo (positionSizing : option PositionSizing) : string :=
  match positionSizing with
  | Some p => " | Size: " ++ Number_toString (recommendedSize p)
  | None => ""
  end.

Definition grade_suffix (decision : AutonomousDecision) : string :=
  gradeEmoji decision ++ " Grade "
    ++ grade_text (market_grade (professional_analysis decision)).

(** The toast of the success path: which of [toast.success],
    [toast.info] and [toast.warning] is called, and with what. *)
Definition present (decision : AutonomousDecision)
    (currentRisk : option RiskAssessment)
    (positionSizing : option PositionSizing) : Notification :=
  if bool_decide (action decision <> WAIT) then
    if enter_now (timing decision) then
      {| severity := success;
         title := emoji decision ++ " IA DECIDE: " ++ actionText decision
                    ++ " AGORA! " ++ grade_suffix decision;
         duration := Some 6000%N;
         description :=
           Some (Number_toString (confidence decision)
                   ++ "% confiança | Sucesso: "
                   ++ Number_toString (expected_success_rate decision) ++ "%"
                   ++ riskInfo currentRisk ++ positionInfo positionSizing) |}
    else
      {| severity := info;
         title := emoji decision ++ " IA DECIDE: " ++ actionText decision
                    ++ " em " ++ Number_toString (wait_seconds (timing decision))
                    ++ "s " ++ grade_suffix decision;
         duration := Some 6000%N;
         description :=
           Some (Number_toString (confidence decision)
                   ++ "% confiança | Timing ótimo em breve"
                   ++ riskInfo currentRisk) |}
  else
    {| severity := warning;
       title := "⏳ IA DECIDE: AGUARDAR " ++ grade_suffix decision;
       duration := Some 5000%N;
       description :=
         Some (Number_toString (confidence decision)
                 ++ "% confiança | Condições não favoráveis") |}.

(** The toast of the [catch] block. *)
Definition error_notification : Notification :=
  {| severity := error;
     title := "Erro na análise autônoma da IA";
     duration := None;
     description := None |}.

End Presenter.

(** ** The effect and the timer callback *)

Section Hook.
Context {runtime : JsRuntime} {collaborators : Collaborators}.

(** [!detailedResults || Object.keys(detailedResults).length === 0]. *)
Definition no_detailed_results (p : Render) : bool :=
  match detailedResults p with
  | None => true
  | Some results => (length (Object_keys results) =? 0)%nat
  end.

(** [!enhancedAnalysisResult || !enhancedAnalysisResult.microPatterns]. *)
Definition no_micro_patterns (p : Render) : bool :=
  match enhancedAnalysisResult p with
  | None => true
  | Some enhanced =>
      match microPatterns enhanced with
      | None => true
      | Some _ => false
      end
  end.

(** The object literal bound to [factors]; it is evaluated only past the
    two guards, where both payloads are present. *)
Definition buildFactors (p : Render) (results : gmap string PatternResult)
    (enhanced : EnhancedAnalysis) : DecisionFactors :=
  {| micro_patterns := default [] (microPatterns enhanced);
     visual_analysis := default empty_visual_analysis (visualAnalysis enhanced);
     market_conditions :=
       {| volatility :=
            or_default
              (visualAnalysis enhanced ?. priceAction ?. pa_volatility) 50;
          noise := calculateMarketNoise (detailedResults p);
          trend_strength :=
            or_default (visualAnalysis enhanced ?. trendStrength) 50 |};
     timing_analysis := default (JsObject "{}") (ea_timing enhanced);
     technical_indicators := results |}.

(** The mapping applied to each element of [fastAnalysisResults]. *)
Definition backtest_input (p : Render) (result : FastAnalysisResult)
    : BacktestInput :=
  {| bt_action :=
       if String.eqb (direction result) "up" then BUY
       else if String.eqb (direction result) "down" then SELL
       else WAIT;
     bt_confidence := fr_confidence result;
     bt_confluences := 2;
     bt_timeframe := selectedTimeframe p |}.

Definition risk_request (p : Render) (factors : DecisionFactors)
    (decision : AutonomousDecision) : RiskRequest :=
  {| rq_decision := decision;
     rq_timeframe := selectedTimeframe p;
     entry_price := 100;
     stop_loss := if bool_decide (action decision = BUY) then 98 else 102;
     take_profit := if bool_decide (action decision = BUY) then 104 else 96;
     rq_volatility := volatility (market_conditions factors);
     rq_confluences := confluences (professional_analysis decision) |}.

(** The body of the [try] block. *)
Definition try_block (p : Render) (factors : DecisionFactors) : M unit :=
  decision ←
    call (Call_makeAutonomousDecision factors (selectedTimeframe p) (marketType p))
         (makeAutonomousDecision factors (selectedTimeframe p) (marketType p));
  setAiDecision decision;;
  (if bool_decide (action decision <> WAIT) then
     let request := risk_request p factors decision in
     riskAssessment ←
       call (Call_evaluateSignalRisk request) (evaluateSignalRisk request);
     emit (ConsoleLog "🎯 Avaliação de risco:")
   else mret tt);;
  (if (5 <? length (fastAnalysisResults p))%nat then
     let signals := List.map (backtest_input p) (fastAnalysisResults p) in
     call (Call_performBacktest signals) (performBacktest signals)
   else mret tt);;
  setIsProcessing false;;
  emit (Toast (present decision (currentRisk p) (positionSizing p))).

(** The [catch] block. *)
Definition catch_block (thrown : JsValue) : M unit :=
  emit (ConsoleError "Erro na decisão autônoma da IA:" thrown);;
  setIsProcessing false;;
  emit (Toast error_notification).

(** The function passed to [setTimeout]. *)
Definition timer_callback (p : Render) (factors : DecisionFactors) : M unit :=
  try_catch (try_block p factors) catch_block.

(** The function passed to [useEffect]. It returns the factors captured
    by the scheduled callback, or nothing when a guard returns early. *)
Definition effect (p : Render) : M (option DecisionFactors) :=
  if no_detailed_results p then mret None
  else if no_micro_patterns p then mret None
  else
    match detailedResults p, enhancedAnalysisResult p with
    | Some results, Some enhanced =>
        setIsProcessing true;;
        let factors := buildFactors p results enhanced in
        emit (ConsoleLog "🤖 IA preparando decisão autônoma APRIMORADA...");;
        emit (SetTimeout 1500);;
        mret (Some factors)
    | _, _ => mret None
    end.

(** One cycle: the effect runs and, when it scheduled the callback, the
    timer fires. *)
Definition cycle (p : Render) : M unit :=
  scheduled ← effect p;
  match scheduled with
  | Some factors => timer_callback p factors
  | None => mret tt
  end.

(** The state and the trace a cycle leaves, started in state [s]. *)
Definition run_cycle (p : Render) (s : HookState) : World :=
  snd (cycle p {| hook := s; trace := [] |}).

End Hook.

(** ** Observations on a trace *)

Definition risk_calls (t : list Event) : list RiskRequest :=
  omap (fun e => match e with Call_evaluateSignalRisk r => Some r | _ => None end) t.

Definition backtest_calls (t : list Event) : list (list BacktestInput) :=
  omap (fun e => match e with Call_performBacktest l => Some l | _ => None end) t.

Definition decision_calls (t : list Event) : nat :=
  length (List.filter
            (fun e => match e with
                      | Call_makeAutonomousDecision _ _ _ => true
                      | _ => false
                      end) t).

Definition toasts (t : list Event) : list Notification :=
  omap (fun e => match e with Toast n => Some n | _ => None end) t.

(** What the effect hands to the timer, as a function of the render. *)
Definition scheduled (p : Render) : option DecisionFactors :=
  if no_detailed_results p then None
  else if no_micro_patterns p then None
  else
    match detailedResults p, enhancedAnalysisResult p with
    | Some results, Some enhanced => Some (buildFactors p results enhanced)
    | _, _ => None
    end.

(** The world in which the timer fires, for a cycle started in [s]: the
    effect has set [isProcessing] and scheduled the callback. *)
Definition at_timer (s : HookState) : World :=
  {| hook := {| aiDecision := aiDecision s; isProcessing := true |};
     trace := [ConsoleLog "🤖 IA preparando decisão autônoma APRIMORADA...";
               SetTimeout 1500] |}.

(** How one element of [fastAnalysisResults] is mapped for the backtest. *)
Definition mapped_signal (p : Render) (result : FastAnalysisResult)
    (signal : BacktestInput) : Prop :=
  (direction result = "up"%string -> bt_action signal = BUY)
  /\ (direction result = "down"%string -> bt_action signal = SELL)
  /\ (direction result <> "up"%string -> direction result <> "down"%string ->
      bt_action signal = WAIT)
  /\ bt_confidence signal = fr_confidence result
  /\ bt_confluences signal = 2
  /\ bt_timeframe signal = selectedTimeframe p.

(** The calls of the decision function and the timers set, in a trace. *)
Definition decision_requests (t : list Event)
    : list (DecisionFactors * string * string) :=
  omap (fun e => match e with
                 | Call_makeAutonomousDecision f tf mt => Some (f, tf, mt)
                 | _ => None
                 end) t.

Definition timeouts (t : list Event) : list N :=
  omap (fun e => match e with SetTimeout d => Some d | _ => None end) t.

(** An entry of [detailedResults] with its two scores exchanged. *)
Definition swap_scores (r : PatternResult) : PatternResult :=
  {| found := found r; buyScore := sellScore r; sellScore := buyScore r |}.

(** ** Two updates before the first timer fires *)

Section Overlap.
Context {runtime : JsRuntime} {collaborators : Collaborators}.

(** The timer of one update fires, if the update set one. *)
Definition fire (p : Render) (pending : option DecisionFactors) : M unit :=
  match pending with
  | Some factors => timer_callback p factors
  | None => mret tt
  end.

(** The effect runs for the render [p1] and again for [p2]. It returns no
    cleanup function and never calls [clearTimeout], so a callback that
    was scheduled stays scheduled; the delays being equal, the callbacks
    fire in the order they were scheduled. *)
Definition first_timer (p1 p2 : Render) : M unit :=
  pending1 ← effect p1;
  pending2 ← effect p2;
  fire p1 pending1.

Definition both_timers (p1 p2 : Render) : M unit :=
  pending1 ← effect p1;
  pending2 ← effect p2;
  fire p1 pending1;;
  fire p2 pending2.

(** The state and the trace a computation leaves, started in state [s]. *)
Definition run (m : M unit) (s : HookState) : World :=
  snd (m {| hook := s; trace := [] |}).

(** The events the timer callback adds to the trace. *)
Definition callback_events (p : Render) (factors : DecisionFactors)
    : list Event :=
  trace (snd (timer_callback p factors {| hook := initial_state; trace := [] |})).

(** The decision is computed and every enrichment that runs returns. *)
Definition all_return (p : Render) (factors : DecisionFactors)
    (d : AutonomousDecision) : Prop :=
  makeAutonomousDecision factors (selectedTimeframe p) (marketType p)
    = Returned d
  /\ (action d = WAIT
      \/ exists v, evaluateSignalRisk (risk_request p factors d) = Returned v)
  /\ ((length (fastAnalysisResults p) <= 5)%nat
      \/ performBacktest
           (List.map (backtest_input p) (fastAnalysisResults p))
         = Returned tt).

End Overlap.

(** Two sets of collaborators that differ at most in the value the risk
    evaluation returns. *)
Definition same_but_risk_value (c1 c2 : Collaborators) : Prop :=
  (forall f tf mt,
      @makeAutonomousDecision c1 f tf mt = @makeAutonomousDecision c2 f tf mt)
  /\ (forall l, @performBacktest c1 l = @performBacktest c2 l)
  /\ (forall r,
        (exists v1 v2,
            @evaluateSignalRisk c1 r = Returned v1
            /\ @evaluateSignalRisk c2 r = Returned v2)
        \/ (exists e,
               @evaluateSignalRisk c1 r = Thrown e
               /\ @evaluateSignalRisk c2 r = Thrown e)).

(** ** Sample data *)

(** A runtime that prints the integer part of a number. *)
Definition integer_text (q : Q) : string :=
  NilZero.string_of_int (Z.to_int (Qfloor q)).

Definition integer_runtime : JsRuntime.
Proof.
  refine {| Number_toString := integer_text |}.
  intros q z Hq _. unfold integer_text.
  now rewrite (Qfloor_comp _ _ Hq), Qfloor_Z.
Defined.

Definition not_found : PatternResult :=
  {| found := false; buyScore := None; sellScore := None |}.

Definition found_without_scores : PatternResult :=
  {| found := true; buyScore := None; sellScore := None |}.

Definition found_balanced : PatternResult :=
  {| found := true; buyScore := Some 0.6; sellScore := Some 0.5 |}.

Definition found_bullish : PatternResult :=
  {| found := true; buyScore := Some 0.9; sellScore := Some 0.1 |}.

Definition buy_now_80 : AutonomousDecision :=
  {| action := BUY;
     confidence := 80;
     expected_success_rate := 75;
     timing := {| enter_now := true; wait_seconds := 0 |};
     professional_analysis := {| market_grade := GradeA; confluences := 3 |} |}.

Definition wait_40 : AutonomousDecision :=
  {| action := WAIT;
     confidence := 40;
     expected_success_rate := 50;
     timing := {| enter_now := false; wait_seconds := 30 |};
     professional_analysis := {| market_grade := GradeC; confluences := 1 |} |}.

Definition six_results : list FastAnalysisResult :=
  [ {| direction := "up"; fr_confidence := 70 |};
    {| direction := "down"; fr_confidence := 65 |};
    {| direction := "neutral"; fr_confidence := 50 |};
    {| direction := "up"; fr_confidence := 80 |};
    {| direction := "up"; fr_confidence := 55 |};
    {| direction := "down"; fr_confidence := 60 |} ].

Definition flat_visual : VisualAnalysis :=
  {| priceAction := Some {| pa_volatility := Some 0 |};
     trendStrength := Some 0 |}.

Definition sample_enhanced : EnhancedAnalysis :=
  {| microPatterns := Some [];
     visualAnalysis := Some flat_visual;
     ea_timing := None |}.

Definition sample_render : Render :=
  {| detailedResults := Some {[ "rsi"%string := found_balanced ]};
     enhancedAnalysisResult := Some sample_enhanced;
     fastAnalysisResults := six_results;
     selectedTimeframe := "1m";
     marketType := "otc";
     currentRisk := None;
     positionSizing := None |}.

(** A render whose pattern results are an empty dictionary. *)
Definition idle_render : Render :=
  {| detailedResults := Some ∅;
     enhancedAnalysisResult := Some sample_enhanced;
     fastAnalysisResults := six_results;
     selectedTimeframe := "1m";
     marketType := "otc";
     currentRisk := None;
     positionSizing := None |}.

Definition sample_factors : DecisionFactors :=
  buildFactors sample_render {[ "rsi"%string := found_balanced ]} sample_enhanced.

(** Collaborators that all return. *)
Definition steady (d : AutonomousDecision) : Collaborators :=
  {| makeAutonomousDecision := fun _ _ _ => Returned d;
     evaluateSignalRisk := fun _ => Returned (JsObject "{}");
     performBacktest := fun _ => Returned tt |}.

(** The decision function throws. *)
Definition failing_decision : Collaborators :=
  {| makeAutonomousDecision := fun _ _ _ => Thrown (JsString "no data");
     evaluateSignalRisk := fun _ => Returned (JsObject "{}");
     performBacktest := fun _ => Returned tt |}.

(** The risk evaluation throws. *)
Definition failing_risk (d : AutonomousDecision) : Collaborators :=
  {| makeAutonomousDecision := fun _ _ _ => Returned d;
     evaluateSignalRisk := fun _ => Thrown (JsString "risk engine down");
     performBacktest := fun _ => Returned tt |}.

(** The backtest rejects. *)
Definition failing_backtest (d : AutonomousDecision) : Collaborators :=
  {| makeAutonomousDecision := fun _ _ _ => Returned d;
     evaluateSignalRisk := fun _ => Returned (JsObject "{}");
     performBacktest := fun _ => Thrown (JsString "backtest rejected") |}.

Definition sell_later_60 : AutonomousDecision :=
  {| action := SELL;
     confidence := 60;
     expected_success_rate := 55;
     timing := {| enter_now := false; wait_seconds := 45 |};
     professional_analysis := {| market_grade := GradeB; confluences := 2 |} |}.

Definition two_indicators : gmap string PatternResult :=
  {[ "rsi"%string := found_balanced; "macd"%string := found_bullish ]}.

(** A later render: another timeframe, and only three fast results. *)
Definition later_render : Render :=
  {| detailedResults := Some two_indicators;
     enhancedAnalysisResult :=
       Some {| microPatterns := Some [JsString "pin-bar"];
               visualAnalysis := None;
               ea_timing := None |};
     fastAnalysisResults := take 3 six_results;
     selectedTimeframe := "5m";
     marketType := "otc";
     currentRisk := Some {| totalRisk := 3 |};
     positionSizing := Some {| recommendedSize := 2 |} |}.

(** A decision function that answers by timeframe. *)
Definition by_timeframe : Collaborators :=
  {| makeAutonomousDecision := fun _ timeframe _ =>
       if String.eqb timeframe "1m" then Returned buy_now_80
       else Returned sell_later_60;
     evaluateSignalRisk := fun _ => Returned (JsObject "{}");
     performBacktest := fun _ => Returned tt |}.

(** * Properties *)

(** ** Lists, dictionaries and numbers *)

Lemma Object_values_lookup {V : Type} (o : gmap string V) (v : V) :
  v ∈ Object_values o <-> exists k, o !! k = Some v.
Proof.
  unfold Object_values. rewrite list_elem_of_fmap. split.
  - intros [[k v'] [-> Hin]]. exists k. now apply elem_of_map_to_list in Hin.
  - intros [k Hk]. exists (k, v). split; [reflexivity|].
    now apply elem_of_map_to_list.
Qed.

Lemma Object_keys_empty {V : Type} (o : gmap string V) :
  length (Object_keys o) = 0%nat <-> o = ∅.
Proof.
  unfold Object_keys. rewrite length_fmap. split.
  - intros H. apply map_to_list_empty_iff. now apply nil_length_inv.
  - intros ->. now rewrite map_to_list_empty.
Qed.

Lemma filter_keeps_all {X : Type} (f : X -> bool) (l : list X) :
  (forall x, x ∈ l -> f x = true) -> List.filter f l = l.
Proof.
  induction l as [|x l IH]; intros H; simpl; [reflexivity|].
  rewrite (H x) by left. f_equal. apply IH. intros y Hy. apply H. now right.
Qed.

Lemma filter_drops_all {X : Type} (f : X -> bool) (l : list X) :
  (forall x, x ∈ l -> f x = false) -> List.filter f l = [].
Proof.
  induction l as [|x l IH]; intros H; simpl; [reflexivity|].
  rewrite (H x) by left. apply IH. intros y Hy. apply H. now right.
Qed.

Lemma elem_of_List_filter {X : Type} (f : X -> bool) (l : list X) (x : X) :
  x ∈ List.filter f l <-> x ∈ l /\ f x = true.
Proof. rewrite !list_elem_of_In. apply filter_In. Qed.


(** Every entry is conflicting: the ratio is one and the score 100. *)
Lemma full_ratio (n : nat) :
  (0 < n)%nat ->
  Qmin 100 (number_of_nat n / number_of_nat (Nat.max 1 n) * 100) == 100.
Proof.
  intros Hn. replace (Nat.max 1 n) with n by lia.
  assert (Hnz : ~ number_of_nat n == 0).
  { unfold number_of_nat, Qeq. simpl. lia. }
  assert (Hq : number_of_nat n / number_of_nat n * 100 == 100) by now field.
  rewrite Hq. now apply Q.min_l.
Qed.

(** No entry is conflicting: the ratio and the score are 0. *)
Lemma empty_ratio (n : nat) :
  Qmin 100 (number_of_nat 0 / number_of_nat n * 100) == 0.
Proof.
  assert (Hq : number_of_nat 0 / number_of_nat n * 100 == 0).
  { unfold number_of_nat, Qdiv. simpl. now rewrite !Qmult_0_l. }
  rewrite Hq. now apply Q.min_r.
Qed.

(** ** calculateMarketNoise *)

Lemma absent_scores_conflict (r : PatternResult) :
  buyScore r = None -> sellScore r = None -> is_conflicting r = true.
Proof. intros Hb Hs. unfold is_conflicting. now rewrite Hb, Hs. Qed.

Lemma noise_all_found_conflicting (results : gmap string PatternResult) :
  (exists k r, results !! k = Some r /\ found r = true) ->
  (forall k r, results !! k = Some r -> found r = true -> is_conflicting r = true) ->
  calculateMarketNoise (Some results) == 100.
Proof.
  intros (k & r & Hk & Hr) Hall. unfold calculateMarketNoise. cbv zeta.
  rewrite (filter_keeps_all is_conflicting).
  - apply full_ratio.
    assert (Hin : r ∈ List.filter found (Object_values results)).
    { apply elem_of_List_filter. split; [|exact Hr].
      apply Object_values_lookup. now exists k. }
    destruct (List.filter found (Object_values results)); simpl; [|lia].
    now apply elem_of_nil in Hin.
  - intros x [Hx Hf]%elem_of_List_filter.
    apply Object_values_lookup in Hx as [k' Hk']. now apply (Hall k').
Qed.

(** C1, as the code has it: without any [found] entry the score is the
    neutral 50 only when the payload itself is absent; a payload that is
    present yields 0, the ratio of an empty count to the clamped
    denominator 1. *)
Theorem noise_without_found_entries
    (detailedResults : option (gmap string PatternResult)) :
  (forall results k r,
      detailedResults = Some results -> results !! k = Some r ->
      found r = false) ->
  calculateMarketNoise detailedResults
    == match detailedResults with None => 50 | Some _ => 0 end.
Proof.
  intros Hnone. destruct detailedResults as [results|]; [|reflexivity].
  unfold calculateMarketNoise. cbv zeta.
  rewrite (filter_drops_all found).
  - apply empty_ratio.
  - intros r [k Hk]%Object_values_lookup. now apply (Hnone results k).
Qed.

Lemma noise_without_found_entries_witness :
  calculateMarketNoise (Some {[ "rsi"%string := not_found ]}) == 0.
Proof.
  apply (noise_without_found_entries (Some {[ "rsi"%string := not_found ]})).
  intros results k r [= <-] Hk.
  apply lookup_singleton_Some in Hk as [_ <-]. reflexivity.
Defined.

(** C1 fails where the payload is present: one entry that was not found
    gives 0, not 50. *)
Lemma noise_not_found_is_not_50 :
  (forall k r, ({[ "rsi"%string := not_found ]} : gmap string PatternResult) !! k = Some r ->
               found r = false)
  /\ ~ calculateMarketNoise (Some {[ "rsi"%string := not_found ]}) == 50.
Proof.
  split.
  - intros k r Hk. apply lookup_singleton_Some in Hk as [_ <-]. reflexivity.
  - vm_compute. discriminate.
Qed.




(** C10: an entry that is [found] and carries neither score is counted as
    conflicting, both scores defaulting to 0; so a payload that holds
    such an entry, and only such entries, has score 100. *)
Theorem noise_absent_scores (r : PatternResult) :
  found r = true -> buyScore r = None -> sellScore r = None ->
  is_conflicting r = true
  /\ forall (results : gmap string PatternResult) (k : string),
       results !! k = Some r ->
       (forall k' r', results !! k' = Some r' ->
                      found r' = true /\ buyScore r' = None /\ sellScore r' = None) ->
       calculateMarketNoise (Some results) == 100.
Proof.
  intros Hf Hb Hs. split; [now apply absent_scores_conflict|].
  intros results k Hk Hall. apply noise_all_found_conflicting.
  - now exists k, r.
  - intros k' r' Hk' _. destruct (Hall k' r' Hk') as (_ & Hb' & Hs').
    now apply absent_scores_conflict.
Qed.

Lemma noise_absent_scores_witness :
  is_conflicting found_without_scores = true
  /\ calculateMarketNoise
       (Some {[ "rsi"%string := found_without_scores ]}) == 100.
Proof.
  destruct (noise_absent_scores found_without_scores eq_refl eq_refl eq_refl)
    as [Hc Hall].
  split; [exact Hc|].
  apply (Hall {[ "rsi"%string := found_without_scores ]} "rsi"%string).
  - apply lookup_singleton_eq.
  - intros k' r' Hk'. apply lookup_singleton_Some in Hk' as [_ <-].
    repeat split.
Defined.

(** ** Strings *)

Lemma prefix_append (a b : string) : String.prefix a (a ++ b)%string = true.
Proof.
  induction a as [|c a IH]; simpl; [now destruct b|].
  destruct (ascii_dec c c); [exact IH|contradiction].
Qed.

Lemma includes_suffix (c : ascii) (haystack needle : string) :
  includes haystack needle = true -> includes (String c haystack) needle = true.
Proof. intros H. cbn [includes]. rewrite H. apply orb_true_r. Qed.

Lemma includes_prefix (haystack needle : string) :
  String.prefix needle haystack = true -> includes haystack needle = true.
Proof. intros H. destruct haystack; cbn [includes]; now rewrite H. Qed.

(** A text that occurs between two others is found by [includes]. *)
Lemma includes_middle (before needle after : string) :
  includes (before ++ needle ++ after)%string needle = true.
Proof.
  induction before as [|c before IH].
  - apply includes_prefix. exact (prefix_append needle after).
  - apply includes_suffix, IH.
Qed.

(** A text found in the end of a string is found in the string. *)
Lemma includes_after (before haystack needle : string) :
  includes haystack needle = true ->
  includes (before ++ haystack)%string needle = true.
Proof.
  intros H. induction before as [|c before IH]; [exact H|].
  apply includes_suffix, IH.
Qed.

Lemma includes_start (needle after : string) :
  includes (needle ++ after)%string needle = true.
Proof. apply (includes_middle "" needle after). Qed.

(** ** The notification *)

Section PresenterFacts.
Context {runtime : JsRuntime}.
Local Open Scope string_scope.

Lemma eighty_prints (q : Q) : q == 80 -> Number_toString q = "80".
Proof.
  intros Hq. rewrite (Number_toString_integer q 80%Z); [reflexivity|exact Hq|].
  reflexivity.
Qed.

(** C4, as the code has it: the texts are Portuguese. For a decision to
    buy now with confidence 80 and grade A, [toast.success] is called,
    the title contains "COMPRAR", "AGORA" and the trophy, and the body
    contains "80". *)
Theorem present_buy_now_grade_A (decision : AutonomousDecision)
    (risk : option RiskAssessment) (sizing : option PositionSizing) :
  action decision = BUY ->
  confidence decision == 80 ->
  enter_now (timing decision) = true ->
  market_grade (professional_analysis decision) = GradeA ->
  let n := present decision risk sizing in
  severity n = success
  /\ includes (title n) "COMPRAR" = true
  /\ includes (title n) "AGORA" = true
  /\ includes (title n) "🏆" = true
  /\ exists body, description n = Some body /\ includes body "80" = true.
Proof.
  intros Ha Hc He Hg n. subst n. unfold present, grade_suffix, gradeEmoji,
    emoji, actionText.
  rewrite Ha, He, Hg. simpl.
  repeat split; try reflexivity.
  eexists. split; [reflexivity|].
  rewrite (eighty_prints _ Hc). reflexivity.
Qed.


End PresenterFacts.

Lemma present_buy_now_grade_A_witness :
  let n := @present integer_runtime buy_now_80 None None in
  severity n = success
  /\ includes (title n) "COMPRAR" = true
  /\ includes (title n) "AGORA" = true
  /\ includes (title n) "🏆" = true
  /\ exists body, description n = Some body /\ includes body "80" = true.
Proof.
  apply (@present_buy_now_grade_A integer_runtime buy_now_80 None None);
    reflexivity.
Defined.

(** C4 fails on the English words: the title of the same toast holds
    neither "BUY" nor "NOW". *)
Lemma buy_now_title_is_portuguese :
  let n := @present integer_runtime buy_now_80 None None in
  action buy_now_80 = BUY
  /\ confidence buy_now_80 = 80
  /\ enter_now (timing buy_now_80) = true
  /\ market_grade (professional_analysis buy_now_80) = GradeA
  /\ title n = "📈 IA DECIDE: COMPRAR AGORA! 🏆 Grade A"%string
  /\ includes (title n) "BUY" = false
  /\ includes (title n) "NOW" = false.
Proof. vm_compute. repeat split. Qed.


(** ** The gate and the factors *)

Section HookFacts.
Context {runtime : JsRuntime} {collaborators : Collaborators}.

Lemma effect_closed (p : Render) (w : World) :
  scheduled p = None -> effect p w = (Returned None, w).
Proof.
  unfold scheduled, effect.
  destruct (no_detailed_results p) eqn:Hd; [reflexivity|].
  destruct (no_micro_patterns p) eqn:Hm; [reflexivity|].
  destruct (detailedResults p), (enhancedAnalysisResult p);
    try reflexivity; discriminate.
Qed.

Lemma effect_open (p : Render) (factors : DecisionFactors) (w : World) :
  scheduled p = Some factors ->
  effect p w
  = (Returned (Some factors),
     {| hook := {| aiDecision := aiDecision (hook w); isProcessing := true |};
        trace := trace w
                   ++ [ConsoleLog "🤖 IA preparando decisão autônoma APRIMORADA...";
                       SetTimeout 1500] |}).
Proof.
  unfold scheduled, effect.
  destruct (no_detailed_results p) eqn:Hd; [discriminate|].
  destruct (no_micro_patterns p) eqn:Hm; [discriminate|].
  destruct (detailedResults p), (enhancedAnalysisResult p);
    try discriminate.
  intros [= <-]. unfold mbind, M_bind, mret, M_ret, setIsProcessing, emit.
  simpl. now rewrite <- app_assoc.
Qed.

Lemma run_cycle_open (p : Render) (factors : DecisionFactors) (s : HookState) :
  scheduled p = Some factors ->
  run_cycle p s = snd (timer_callback p factors (at_timer s)).
Proof.
  intros H. unfold run_cycle, cycle, mbind, M_bind.
  now rewrite (effect_open p factors _ H).
Qed.

Lemma run_cycle_closed (p : Render) (s : HookState) :
  scheduled p = None -> run_cycle p s = {| hook := s; trace := [] |}.
Proof.
  intros H. unfold run_cycle, cycle, mbind, M_bind.
  now rewrite (effect_closed p _ H).
Qed.

Lemma gate_closed (p : Render) :
  detailedResults p = None
  \/ detailedResults p = Some ∅
  \/ enhancedAnalysisResult p = None
  \/ (exists enhanced,
         enhancedAnalysisResult p = Some enhanced
         /\ microPatterns enhanced = None) ->
  scheduled p = None.
Proof.
  unfold scheduled, no_detailed_results, no_micro_patterns.
  intros [H|[H|[H|(enhanced & H & Hm)]]]; rewrite H; try reflexivity.
  - destruct (detailedResults p) as [results|]; [|reflexivity].
    now destruct (length (Object_keys results) =? 0)%nat.
  - rewrite Hm. destruct (detailedResults p) as [results|]; [|reflexivity].
    now destruct (length (Object_keys results) =? 0)%nat.
Qed.

(** C6: when [detailedResults] is absent or empty, or
    [enhancedAnalysisResult] is absent or has no [microPatterns], the
    effect returns at a guard: it builds and schedules nothing, calls no
    collaborator, shows no toast, and leaves both state cells as they
    were. *)
Theorem gated_update_is_idle (p : Render) (s : HookState) (t : list Event) :
  detailedResults p = None
  \/ detailedResults p = Some ∅
  \/ enhancedAnalysisResult p = None
  \/ (exists enhanced,
         enhancedAnalysisResult p = Some enhanced
         /\ microPatterns enhanced = None) ->
  effect p {| hook := s; trace := t |}
    = (Returned None, {| hook := s; trace := t |})
  /\ run_cycle p s = {| hook := s; trace := [] |}.
Proof.
  intros H%gate_closed. split.
  - now apply effect_closed.
  - now apply run_cycle_closed.
Qed.

(** C9: a volatility or a trend strength that is present and equal to 0
    is falsy, so the factors carry the default 50 in its place. *)
Theorem zero_is_replaced_by_default (p : Render)
    (results : gmap string PatternResult) (enhanced : EnhancedAnalysis)
    (visual : VisualAnalysis) :
  visualAnalysis enhanced = Some visual ->
  let conditions := market_conditions (buildFactors p results enhanced) in
  (forall pa v,
      priceAction visual = Some pa -> pa_volatility pa = Some v -> v == 0 ->
      volatility conditions = 50)
  /\ (forall v,
         trendStrength visual = Some v -> v == 0 ->
         trend_strength conditions = 50).
Proof.
  intros Hv conditions. subst conditions. unfold buildFactors. simpl.
  rewrite Hv. simpl. split.
  - intros pa v -> Hpa Hz. simpl. rewrite Hpa. simpl.
    apply Qeq_bool_iff in Hz. now rewrite Hz.
  - intros v -> Hz. simpl. apply Qeq_bool_iff in Hz. now rewrite Hz.
Qed.

(** ** The timer callback *)

Ltac run_hook :=
  unfold timer_callback, try_catch, try_block, catch_block, at_timer,
    mbind, M_bind, mret, M_ret, call, emit, setAiDecision, setIsProcessing;
  simpl.

Ltac decide_action :=
  case_bool_decide; try (exfalso; (contradiction || congruence)); simpl.

Lemma more_than_five (n : nat) : (5 < n)%nat -> (5 <? n)%nat = true.
Proof. apply Nat.ltb_lt. Qed.

Lemma at_most_five (n : nat) : (n <= 5)%nat -> (5 <? n)%nat = false.
Proof. intros H. apply Nat.ltb_ge. exact H. Qed.

(** C2, as the code has it: when the decision function, the risk
    evaluation or the backtest throws, the cycle ends with
    [isProcessing] false and one toast, the generic error. The stored
    decision is the one from before the cycle when the decision function
    threw; the new decision is stored before the enrichment, so it is the
    stored one when the risk evaluation or the backtest throws. *)
Theorem cycle_error_handling (p : Render) (s : HookState)
    (factors : DecisionFactors) :
  scheduled p = Some factors ->
  let after := run_cycle p s in
  let decided :=
    makeAutonomousDecision factors (selectedTimeframe p) (marketType p) in
  let ended :=
    isProcessing (hook after) = false
    /\ toasts (trace after) = [error_notification] in
  (forall e, decided = Thrown e ->
     ended /\ aiDecision (hook after) = aiDecision s)
  /\ (forall d e,
        decided = Returned d -> action d <> WAIT ->
        evaluateSignalRisk (risk_request p factors d) = Thrown e ->
        ended /\ aiDecision (hook after) = Some d)
  /\ (forall d e,
        decided = Returned d ->
        (action d = WAIT
         \/ exists v, evaluateSignalRisk (risk_request p factors d) = Returned v) ->
        (5 < length (fastAnalysisResults p))%nat ->
        performBacktest (List.map (backtest_input p) (fastAnalysisResults p))
          = Thrown e ->
        ended /\ aiDecision (hook after) = Some d).
Proof.
  intros Hs after decided ended. subst after decided ended.
  rewrite (run_cycle_open p factors s Hs). split; [|split].
  - intros e Hd. run_hook. rewrite Hd. simpl. auto.
  - intros d e Hd Ha Hr. run_hook. rewrite Hd. simpl.
    decide_action. rewrite Hr. simpl. auto.
  - intros d e Hd Hrisk Hlen%more_than_five Hb. run_hook. rewrite Hd. simpl.
    decide_action.
    + destruct Hrisk as [Hw|[v Hv]]; [congruence|].
      rewrite Hv. simpl. rewrite Hlen, Hb. simpl. auto.
    + rewrite Hlen, Hb. simpl. auto.
Qed.

(** C3, as the code has it: for a computed decision other than WAIT,
    [evaluateSignalRisk] is called once, with entry price 100, the stop
    2% from the entry and the take-profit 4% from it (buy: stop 98 below,
    take-profit 104 above; sell: stop 102 above, take-profit 96 below);
    for WAIT it is not called. *)
Theorem risk_evaluation_request (p : Render) (s : HookState)
    (factors : DecisionFactors) (d : AutonomousDecision) :
  scheduled p = Some factors ->
  makeAutonomousDecision factors (selectedTimeframe p) (marketType p)
    = Returned d ->
  let calls := risk_calls (trace (run_cycle p s)) in
  (action d <> WAIT ->
     exists r,
       calls = [r]
       /\ entry_price r = 100
       /\ (action d = BUY ->
             stop_loss r == entry_price r - 2 / 100 * entry_price r
             /\ take_profit r == entry_price r + 4 / 100 * entry_price r)
       /\ (action d = SELL ->
             stop_loss r == entry_price r + 2 / 100 * entry_price r
             /\ take_profit r == entry_price r - 4 / 100 * entry_price r))
  /\ (action d = WAIT -> calls = []).
Proof.
  intros Hs Hd calls. subst calls.
  rewrite (run_cycle_open p factors s Hs). split.
  - intros Ha. exists (risk_request p factors d). split; [|split; [|split]].
    + run_hook. rewrite Hd. simpl. decide_action.
      destruct (evaluateSignalRisk (risk_request p factors d)); simpl;
        [|reflexivity].
      destruct (5 <? length (fastAnalysisResults p))%nat; simpl;
        [|reflexivity].
      destruct (performBacktest _); reflexivity.
    + reflexivity.
    + intros Hb. unfold risk_request. simpl.
      rewrite (bool_decide_eq_true_2 _ Hb). split; reflexivity.
    + intros Hb. unfold risk_request. simpl.
      rewrite bool_decide_eq_false_2 by congruence. split; reflexivity.
  - intros Ha. run_hook. rewrite Hd. simpl. decide_action.
    destruct (5 <? length (fastAnalysisResults p))%nat; simpl;
      [|reflexivity].
    destruct (performBacktest _); reflexivity.
Qed.

Lemma backtest_input_mapped (p : Render) (result : FastAnalysisResult) :
  mapped_signal p result (backtest_input p result).
Proof.
  unfold mapped_signal, backtest_input. simpl.
  destruct (String.eqb_spec (direction result) "up") as [Hu|Hu];
    destruct (String.eqb_spec (direction result) "down") as [Hw|Hw];
    repeat split; try reflexivity; intros; congruence.
Qed.

(** C5, as the code has it: in a cycle that reaches the backtest step,
    the decision computed and the risk evaluation, if any, returned,
    more than 5 fast results make one call of [performBacktest] with one
    mapped entry per result (up to BUY, down to SELL, otherwise WAIT,
    the confidence kept, confluences 2, the selected timeframe); with 5
    results or fewer it is never called. *)
Theorem backtest_invocation (p : Render) (s : HookState) :
  let calls := backtest_calls (trace (run_cycle p s)) in
  (forall factors d,
      scheduled p = Some factors ->
      makeAutonomousDecision factors (selectedTimeframe p) (marketType p)
        = Returned d ->
      (action d = WAIT
       \/ exists v, evaluateSignalRisk (risk_request p factors d) = Returned v) ->
      (5 < length (fastAnalysisResults p))%nat ->
      exists signals,
        calls = [signals]
        /\ Forall2 (mapped_signal p) (fastAnalysisResults p) signals)
  /\ ((length (fastAnalysisResults p) <= 5)%nat -> calls = []).
Proof.
  intros calls. subst calls. split.
  - intros factors d Hs Hd Hrisk Hlen%more_than_five.
    exists (List.map (backtest_input p) (fastAnalysisResults p)). split.
    + rewrite (run_cycle_open p factors s Hs). run_hook. rewrite Hd. simpl.
      decide_action.
      * destruct Hrisk as [Hw|[v Hv]]; [congruence|].
        rewrite Hv. simpl. rewrite Hlen.
        destruct (performBacktest _); reflexivity.
      * rewrite Hlen. destruct (performBacktest _); reflexivity.
    + apply Forall2_fmap_r, Forall_Forall2_diag, Forall_forall.
      intros result _. apply backtest_input_mapped.
  - intros Hlen%at_most_five.
    destruct (scheduled p) as [factors|] eqn:Hs.
    + rewrite (run_cycle_open p factors s Hs). run_hook.
      destruct (makeAutonomousDecision _ _ _) as [d|e]; simpl; [|reflexivity].
      case_bool_decide; simpl.
      * destruct (evaluateSignalRisk _); simpl; [|reflexivity].
        now rewrite Hlen.
      * now rewrite Hlen.
    + now rewrite (run_cycle_closed p s Hs).
Qed.

End HookFacts.

(** ** Instances on the sample data *)

Lemma gated_update_is_idle_witness :
  @effect idle_render {| hook := initial_state; trace := [] |}
    = (Returned None, {| hook := initial_state; trace := [] |})
  /\ @run_cycle integer_runtime (steady buy_now_80) idle_render initial_state
     = {| hook := initial_state; trace := [] |}.
Proof.
  apply (@gated_update_is_idle integer_runtime (steady buy_now_80)
           idle_render initial_state []).
  right. left. reflexivity.
Defined.

Lemma zero_is_replaced_by_default_witness :
  volatility (market_conditions sample_factors) = 50
  /\ trend_strength (market_conditions sample_factors) = 50.
Proof.
  destruct (zero_is_replaced_by_default sample_render
              {[ "rsi"%string := found_balanced ]} sample_enhanced flat_visual
              eq_refl) as [Hv Ht].
  split.
  - apply (Hv {| pa_volatility := Some 0 |} 0); reflexivity.
  - apply (Ht 0); reflexivity.
Defined.

Lemma cycle_error_handling_witness :
  let after :=
    @run_cycle integer_runtime failing_decision sample_render initial_state in
  (isProcessing (hook after) = false
   /\ toasts (trace after) = [@error_notification])
  /\ aiDecision (hook after) = aiDecision initial_state.
Proof.
  destruct (@cycle_error_handling integer_runtime failing_decision
              sample_render initial_state sample_factors eq_refl)
    as [Hthrown _].
  apply (Hthrown (JsString "no data")). reflexivity.
Defined.

(** C2 fails when the enrichment throws: the risk evaluation throws
    after the new decision was stored, and the stored decision is no
    longer the one from before the cycle. *)
Lemma enrichment_error_replaces_decision :
  let after :=
    @run_cycle integer_runtime (failing_risk buy_now_80) sample_render
      initial_state in
  @evaluateSignalRisk (failing_risk buy_now_80)
      (risk_request sample_render sample_factors buy_now_80)
    = Thrown (JsString "risk engine down")
  /\ isProcessing (hook after) = false
  /\ toasts (trace after) = [@error_notification]
  /\ aiDecision initial_state = None
  /\ aiDecision (hook after) = Some buy_now_80
  /\ aiDecision (hook after) <> aiDecision initial_state.
Proof. vm_compute. repeat split. discriminate. Qed.

Lemma risk_evaluation_request_witness :
  exists r,
    risk_calls
      (trace (@run_cycle integer_runtime (steady buy_now_80) sample_render
                initial_state)) = [r]
    /\ entry_price r = 100
    /\ stop_loss r == 98
    /\ take_profit r == 104.
Proof.
  destruct (@risk_evaluation_request integer_runtime (steady buy_now_80)
              sample_render initial_state sample_factors buy_now_80
              eq_refl eq_refl) as [Hcall _].
  destruct Hcall as (r & Hr & He & Hbuy & _); [discriminate|].
  exists r. split; [exact Hr|]. split; [exact He|].
  destruct (Hbuy eq_refl) as [Hsl Htp].
  rewrite Hsl, Htp, He. split; reflexivity.
Defined.

(** C3 fails on the take-profit: for a decision to buy, the one request
    has its take-profit 4% above the entry price, not 2%. *)
Lemma take_profit_is_not_two_percent :
  exists r,
    action buy_now_80 = BUY
    /\ risk_calls
         (trace (@run_cycle integer_runtime (steady buy_now_80) sample_render
                   initial_state)) = [r]
    /\ entry_price r = 100
    /\ take_profit r = 104
    /\ ~ take_profit r == entry_price r + 2 / 100 * entry_price r.
Proof.
  exists (risk_request sample_render sample_factors buy_now_80).
  vm_compute. repeat split. discriminate.
Qed.

Lemma backtest_invocation_witness :
  exists signals,
    backtest_calls
      (trace (@run_cycle integer_runtime (steady buy_now_80) sample_render
                initial_state)) = [signals]
    /\ Forall2 (mapped_signal sample_render) six_results signals.
Proof.
  destruct (@backtest_invocation integer_runtime (steady buy_now_80)
              sample_render initial_state) as [Hcall _].
  apply (Hcall sample_factors buy_now_80); try reflexivity.
  - right. exists (JsObject "{}"). reflexivity.
  - simpl. lia.
Defined.

(** C5 fails in a cycle whose decision function throws: six fast
    results, and [performBacktest] is not called. *)
Lemma no_backtest_when_decision_throws :
  let after :=
    @run_cycle integer_runtime failing_decision sample_render initial_state in
  (5 < length (fastAnalysisResults sample_render))%nat
  /\ decision_calls (trace after) = 1%nat
  /\ backtest_calls (trace after) = [].
Proof. vm_compute. repeat split. lia. Qed.

(** * Further properties of the hook *)

(** ** calculateMarketNoise: range, proportion and what it ignores *)


Lemma number_of_nat_nonneg (n : nat) : 0 <= number_of_nat n.
Proof. unfold number_of_nat, Qle. simpl. lia. Qed.

Lemma number_of_nat_pos (n : nat) : (0 < n)%nat -> 0 < number_of_nat n.
Proof. unfold number_of_nat, Qlt. simpl. lia. Qed.

Lemma number_of_nat_le (a b : nat) :
  (a <= b)%nat -> number_of_nat a <= number_of_nat b.
Proof. unfold number_of_nat, Qle. simpl. lia. Qed.

Lemma filter_length_le {X : Type} (f : X -> bool) (l : list X) :
  (length (List.filter f l) <= length l)%nat.
Proof.
  induction l as [|x l IH]; simpl; [lia|]. destruct (f x); simpl; lia.
Qed.

(** The percentage of [c] among [n], for [c] at most [n], is in range. *)
Lemma ratio_in_range (c n : nat) :
  (c <= n)%nat ->
  0 <= number_of_nat c / number_of_nat (Nat.max 1 n) * 100 <= 100.
Proof.
  intros Hcn.
  assert (Hpos : 0 < number_of_nat (Nat.max 1 n))
    by (apply number_of_nat_pos; lia).
  assert (Hle : number_of_nat c <= number_of_nat (Nat.max 1 n))
    by (apply number_of_nat_le; lia).
  split.
  - apply Qmult_le_0_compat; [|discriminate].
    apply Qle_shift_div_l; [exact Hpos|].
    rewrite Qmult_0_l. apply number_of_nat_nonneg.
  - apply (Qle_trans _ (1 * 100)); [|unfold Qle; simpl; lia].
    apply Qmult_le_compat_r; [|discriminate].
    apply Qle_shift_div_r; [exact Hpos|]. now rewrite Qmult_1_l.
Qed.

(** X1: the score is a percentage, whatever the payload. *)
Theorem noise_within_bounds
    (detailedResults : option (gmap string PatternResult)) :
  0 <= calculateMarketNoise detailedResults <= 100.
Proof.
  destruct detailedResults as [results|]; simpl; [|split; discriminate].
  split.
  - apply Q.min_glb; [discriminate|].
    apply ratio_in_range, filter_length_le.
  - apply Q.le_min_l.
Qed.





Lemma filter_Permutation {X : Type} (f : X -> bool) (l l' : list X) :
  l ≡ₚ l' -> List.filter f l ≡ₚ List.filter f l'.
Proof.
  induction 1 as [|x l l' _ IH|x y l|l l' l'' _ IH1 _ IH2]; simpl.
  - reflexivity.
  - destruct (f x); [now constructor|exact IH].
  - destruct (f x), (f y); try reflexivity. apply perm_swap.
  - now transitivity (List.filter f l').
Qed.

(** X4: entries that were not [found] do not count: adding one under a
    fresh key, or removing one, leaves the score as it was. *)
Theorem noise_ignores_not_found (results : gmap string PatternResult)
    (k : string) (r : PatternResult) :
  found r = false ->
  (results !! k = None ->
   calculateMarketNoise (Some (<[k := r]> results))
     = calculateMarketNoise (Some results))
  /\ (results !! k = Some r ->
      calculateMarketNoise (Some (delete k results))
        = calculateMarketNoise (Some results)).
Proof.
  intros Hf.
  assert (Hdrop : forall l : list PatternResult,
             List.filter found (r :: l) = List.filter found l)
    by (intros l; simpl; now rewrite Hf).
  split; intros Hk; unfold calculateMarketNoise; cbv zeta.
  - pose proof (map_to_list_insert results k r Hk) as Hp.
    apply (fmap_Permutation snd) in Hp.
    apply (filter_Permutation found) in Hp.
    change (List.filter found (Object_values (<[k:=r]> results))
              ≡ₚ List.filter found (r :: Object_values results)) in Hp.
    rewrite Hdrop in Hp.
    pose proof (filter_Permutation is_conflicting _ _ Hp) as Hc.
    now rewrite (Permutation_length Hp), (Permutation_length Hc).
  - pose proof (map_to_list_delete results k r Hk) as Hp.
    apply (fmap_Permutation snd) in Hp.
    apply (filter_Permutation found) in Hp.
    change (List.filter found (r :: Object_values (delete k results))
              ≡ₚ List.filter found (Object_values results)) in Hp.
    rewrite Hdrop in Hp.
    pose proof (filter_Permutation is_conflicting _ _ Hp) as Hc.
    now rewrite (Permutation_length Hp), (Permutation_length Hc).
Qed.

Lemma noise_ignores_not_found_witness :
  calculateMarketNoise
      (Some (<[ "adx"%string := not_found ]> two_indicators))
    = calculateMarketNoise (Some two_indicators).
Proof.
  destruct (noise_ignores_not_found two_indicators "adx"%string not_found
              eq_refl) as [Hinsert _].
  apply Hinsert. reflexivity.
Defined.

Lemma filter_fmap_invariant {X : Type} (f : X -> bool) (g : X -> X)
    (l : list X) :
  (forall x, f (g x) = f x) ->
  List.filter f (g <$> l) = g <$> List.filter f l.
Proof.
  intros Hfg. induction l as [|x l IH]; [reflexivity|].
  rewrite fmap_cons. cbn [List.filter]. rewrite Hfg, IH.
  destruct (f x); [now rewrite fmap_cons|reflexivity].
Qed.

Lemma swap_scores_conflicting (r : PatternResult) :
  is_conflicting (swap_scores r) = is_conflicting r.
Proof.
  unfold is_conflicting, swap_scores. cbn [buyScore sellScore].
  now rewrite Qabs_Qminus.
Qed.

(** X5: the score does not tell buying pressure from selling pressure:
    exchanging the two scores of every entry leaves it as it was. *)
Theorem noise_is_symmetric (results : gmap string PatternResult) :
  calculateMarketNoise (Some (swap_scores <$> results))
    = calculateMarketNoise (Some results).
Proof.
  unfold calculateMarketNoise. cbv zeta.
  assert (Hv : Object_values (swap_scores <$> results)
               = swap_scores <$> Object_values results).
  { unfold Object_values. rewrite map_to_list_fmap, <- !list_fmap_compose.
    reflexivity. }
  rewrite Hv.
  rewrite (filter_fmap_invariant found swap_scores) by reflexivity.
  rewrite (filter_fmap_invariant is_conflicting swap_scores)
    by apply swap_scores_conflicting.
  now rewrite !length_fmap.
Qed.

(** ** The notification: the three kinds of toast *)

Lemma prefix_extend (needle haystack after : string) :
  String.prefix needle haystack = true ->
  String.prefix needle (haystack ++ after)%string = true.
Proof.
  revert haystack. induction needle as [|c needle IH]; intros haystack H.
  - now destruct (haystack ++ after)%string.
  - destruct haystack as [|c' haystack]; [discriminate|].
    change (String.prefix (String c needle)
              (String c' (haystack ++ after)%string) = true).
    cbn [String.prefix] in H |- *.
    destruct (ascii_dec c c'); [now apply IH|discriminate].
Qed.

(** A text found in the start of a string is found in the string. *)
Lemma includes_before (haystack after needle : string) :
  includes haystack needle = true ->
  includes (haystack ++ after)%string needle = true.
Proof.
  induction haystack as [|c haystack IH]; intros H.
  - cbn [includes] in H. rewrite orb_false_r in H.
    apply includes_prefix. now apply (prefix_extend needle "" after).
  - cbn [includes] in H. apply orb_true_iff in H as [H|H].
    + apply includes_prefix. now apply (prefix_extend _ (String c haystack)).
    + change (includes (String c (haystack ++ after)%string) needle = true).
      apply includes_suffix. now apply IH.
Qed.

Lemma string_append_assoc (a b c : string) :
  ((a ++ b) ++ c = a ++ (b ++ c))%string.
Proof.
  induction a as [|x a IH]; [reflexivity|].
  change (String x ((a ++ b) ++ c) = String x (a ++ (b ++ c)))%string.
  now rewrite IH.
Qed.

Lemma includes_self (s : string) : includes s s = true.
Proof.
  apply includes_prefix. induction s as [|c s IH]; [reflexivity|].
  cbn [String.prefix]. destruct (ascii_dec c c); [exact IH|contradiction].
Qed.

(** Finds a text that is one of the pieces of a concatenation. *)
Ltac find_piece :=
  repeat match goal with
         | |- includes ?s ?s = true => apply includes_self
         | |- includes (?n ++ _)%string ?n = true => apply includes_start
         | |- includes (_ ++ _)%string _ = true => apply includes_after
         end.

Section ToastFacts.
Context {runtime : JsRuntime}.
Local Open Scope string_scope.

(** X6: which toast is shown. It is [toast.warning] exactly for WAIT,
    [toast.success] exactly for another action to enter now, and
    [toast.info] exactly for another action to enter later; it is never
    [toast.error]. A warning lasts 5000 ms, the two others 6000 ms, and
    each has a description. *)
Theorem present_severity (decision : AutonomousDecision)
    (risk : option RiskAssessment) (sizing : option PositionSizing) :
  let n := present decision risk sizing in
  (severity n = warning <-> action decision = WAIT)
  /\ (severity n = success
      <-> action decision <> WAIT /\ enter_now (timing decision) = true)
  /\ (severity n = info
      <-> action decision <> WAIT /\ enter_now (timing decision) = false)
  /\ severity n <> error
  /\ duration n
     = Some (if bool_decide (action decision = WAIT) then 5000 else 6000)%N
  /\ is_Some (description n).
Proof.
  intros n. subst n. unfold present.
  destruct (action decision) eqn:Ha;
    destruct (enter_now (timing decision)) eqn:He; simpl;
    repeat split; try discriminate; try congruence; eauto;
    intros [? ?]; congruence.
Qed.

(** X7: the toast for a decision to enter later. The title names the
    action in Portuguese, the seconds to wait and the grade; the body
    carries the confidence, the fixed text on timing, and the risk text. *)
Theorem present_later (decision : AutonomousDecision)
    (risk : option RiskAssessment) (sizing : option PositionSizing) :
  action decision <> WAIT ->
  enter_now (timing decision) = false ->
  let n := present decision risk sizing in
  severity n = info
  /\ includes (title n) (actionText decision) = true
  /\ includes (title n)
       (" em " ++ Number_toString (wait_seconds (timing decision)) ++ "s ")
     = true
  /\ includes (title n)
       ("Grade " ++ grade_text (market_grade (professional_analysis decision)))
     = true
  /\ exists body,
       description n = Some body
       /\ includes body (Number_toString (confidence decision)) = true
       /\ includes body "Timing ótimo em breve" = true
       /\ includes body (riskInfo risk) = true.
Proof.
  intros Ha He n. subst n. unfold present.
  rewrite (bool_decide_eq_true_2 _ Ha), He. cbn [severity title description].
  split; [reflexivity|]. split; [find_piece|]. split; [|split].
  - do 3 apply includes_after.
    rewrite <- (string_append_assoc (Number_toString _) "s ").
    rewrite <- (string_append_assoc " em ").
    apply includes_start.
  - do 6 apply includes_after. unfold grade_suffix, gradeEmoji.
    destruct (market_grade (professional_analysis decision)); reflexivity.
  - eexists. split; [reflexivity|]. split; [find_piece|]. split.
    + apply includes_after.
      apply (includes_before "% confiança | Timing ótimo em breve").
      reflexivity.
    + find_piece.
Qed.

(** X8: the toast for a decision to enter now carries the expected
    success rate, and the risk and the position size when they are known. *)
Theorem present_now_context (decision : AutonomousDecision)
    (risk : option RiskAssessment) (sizing : option PositionSizing) :
  action decision <> WAIT ->
  enter_now (timing decision) = true ->
  exists body,
    description (present decision risk sizing) = Some body
    /\ includes body
         ("Sucesso: " ++ Number_toString (expected_success_rate decision) ++ "%")
       = true
    /\ (forall r, risk = Some r ->
          includes body (" | Risco: " ++ Number_toString (totalRisk r)) = true)
    /\ (forall z, sizing = Some z ->
          includes body (" | Size: " ++ Number_toString (recommendedSize z))
          = true)
    /\ (risk = None -> sizing = None ->
          body = Number_toString (confidence decision)
                   ++ "% confiança | Sucesso: "
                   ++ Number_toString (expected_success_rate decision) ++ "%").
Proof.
  intros Ha He. unfold present.
  rewrite (bool_decide_eq_true_2 _ Ha), He. cbn [description].
  eexists. split; [reflexivity|]. split; [|split; [|split]].
  - apply includes_after.
    apply (includes_after "% confiança | "
             ("Sucesso: " ++ Number_toString (expected_success_rate decision)
                ++ "%" ++ riskInfo risk ++ positionInfo sizing)).
    rewrite <- (string_append_assoc (Number_toString _) "%").
    rewrite <- (string_append_assoc "Sucesso: ").
    apply includes_start.
  - intros r ->. cbn [riskInfo]. do 4 apply includes_after.
    apply includes_start.
  - intros z ->. cbn [positionInfo]. find_piece.
  - intros -> ->. reflexivity.
Qed.

(** X9: what a toast does not show. The warning for WAIT is the same
    whatever the risk and the position size, and the toast for entering
    later is the same whatever the position size. *)
Theorem present_ignores_context (decision : AutonomousDecision)
    (risk risk' : option RiskAssessment)
    (sizing sizing' : option PositionSizing) :
  (action decision = WAIT ->
   present decision risk sizing = present decision risk' sizing')
  /\ (enter_now (timing decision) = false ->
      present decision risk sizing = present decision risk sizing').
Proof.
  split.
  - intros Ha. unfold present. now rewrite Ha.
  - intros He. unfold present. rewrite He. reflexivity.
Qed.

End ToastFacts.

Lemma present_later_witness :
  let n := @present integer_runtime sell_later_60
             (Some {| totalRisk := 3 |}) None in
  severity n = info
  /\ includes (title n) "VENDER" = true
  /\ includes (title n) " em 45s " = true
  /\ includes (title n) "Grade B" = true
  /\ exists body,
       description n = Some body
       /\ includes body "60" = true
       /\ includes body "Timing ótimo em breve" = true
       /\ includes body " | Risco: 3" = true.
Proof.
  apply (@present_later integer_runtime sell_later_60
           (Some {| totalRisk := 3 |}) None); [discriminate|reflexivity].
Defined.

Lemma present_now_context_witness :
  exists body,
    description (@present integer_runtime buy_now_80
                   (Some {| totalRisk := 3 |})
                   (Some {| recommendedSize := 2 |})) = Some body
    /\ includes body " | Risco: 3" = true
    /\ includes body " | Size: 2" = true.
Proof.
  destruct (@present_now_context integer_runtime buy_now_80
              (Some {| totalRisk := 3 |}) (Some {| recommendedSize := 2 |}))
    as (body & Hb & _ & Hr & Hz & _); [discriminate|reflexivity|].
  exists body. split; [exact Hb|]. split.
  - apply (Hr {| totalRisk := 3 |}). reflexivity.
  - apply (Hz {| recommendedSize := 2 |}). reflexivity.
Defined.

Lemma present_ignores_context_witness :
  @present integer_runtime wait_40 (Some {| totalRisk := 3 |})
      (Some {| recommendedSize := 2 |})
    = @present integer_runtime wait_40 None None.
Proof.
  destruct (@present_ignores_context integer_runtime wait_40
              (Some {| totalRisk := 3 |}) None
              (Some {| recommendedSize := 2 |}) None) as [Hwait _].
  apply Hwait. reflexivity.
Defined.

(** ** The gate, the factors and the effect *)

Lemma scheduled_iff (p : Render) (factors : DecisionFactors) :
  scheduled p = Some factors
  <-> exists results enhanced patterns,
        detailedResults p = Some results
        /\ results <> ∅
        /\ enhancedAnalysisResult p = Some enhanced
        /\ microPatterns enhanced = Some patterns
        /\ factors = buildFactors p results enhanced.
Proof.
  unfold scheduled, no_detailed_results, no_micro_patterns. split.
  - destruct (detailedResults p) as [results|]; [|discriminate].
    destruct (length (Object_keys results) =? 0)%nat eqn:Hk; [discriminate|].
    destruct (enhancedAnalysisResult p) as [enhanced|]; [|discriminate].
    destruct (microPatterns enhanced) as [patterns|] eqn:Hm; [|discriminate].
    intros [= <-]. exists results, enhanced, patterns.
    repeat split; try assumption.
    intros ->. apply Nat.eqb_neq in Hk. apply Hk.
    now apply Object_keys_empty.
  - intros (results & enhanced & patterns & -> & Hne & -> & Hm & ->).
    rewrite Hm.
    destruct (length (Object_keys results) =? 0)%nat eqn:Hk; [|reflexivity].
    apply Nat.eqb_eq, Object_keys_empty in Hk. contradiction.
Qed.

(** X10: the effect goes past its guards exactly when [detailedResults]
    has at least one key and [enhancedAnalysisResult] carries
    [microPatterns], an empty array included; the factors it captures
    are then those built from the two payloads. *)
Theorem effect_schedules_iff (p : Render) (w : World)
    (factors : DecisionFactors) :
  fst (effect p w) = Returned (Some factors)
  <-> exists results enhanced patterns,
        detailedResults p = Some results
        /\ results <> ∅
        /\ enhancedAnalysisResult p = Some enhanced
        /\ microPatterns enhanced = Some patterns
        /\ factors = buildFactors p results enhanced.
Proof.
  rewrite <- scheduled_iff.
  destruct (scheduled p) as [f|] eqn:Hs.
  - rewrite (effect_open p f w Hs). simpl. split; congruence.
  - rewrite (effect_closed p w Hs). simpl. split; congruence.
Qed.

(** X11: past the guards the effect sets [isProcessing], leaves the
    stored decision alone, logs once and sets one timer of 1500 ms; it
    calls no collaborator and shows no toast before the timer fires. *)
Theorem effect_sets_timer (p : Render) (w : World)
    (results : gmap string PatternResult) (enhanced : EnhancedAnalysis)
    (patterns : list JsValue) :
  detailedResults p = Some results ->
  results <> ∅ ->
  enhancedAnalysisResult p = Some enhanced ->
  microPatterns enhanced = Some patterns ->
  let after := snd (effect p w) in
  hook after = {| aiDecision := aiDecision (hook w); isProcessing := true |}
  /\ exists message,
       trace after = trace w ++ [ConsoleLog message; SetTimeout 1500].
Proof.
  intros Hd Hne He Hm after. subst after.
  assert (Hs : scheduled p = Some (buildFactors p results enhanced)).
  { apply scheduled_iff. now exists results, enhanced, patterns. }
  rewrite (effect_open p _ w Hs). simpl. split; [reflexivity|].
  eexists. reflexivity.
Qed.

(** X12: the defaults of the factors. A volatility that is missing at
    any step of the optional chain is 50, and so is a missing trend
    strength; a missing [visualAnalysis] or [timing] is the empty
    object. *)
Theorem factors_defaults (p : Render) (results : gmap string PatternResult)
    (enhanced : EnhancedAnalysis) :
  let factors := buildFactors p results enhanced in
  let conditions := market_conditions factors in
  (visualAnalysis enhanced = None ->
     visual_analysis factors = empty_visual_analysis
     /\ volatility conditions = 50 /\ trend_strength conditions = 50)
  /\ (forall visual,
        visualAnalysis enhanced = Some visual ->
        (priceAction visual = None -> volatility conditions = 50)
        /\ (forall pa, priceAction visual = Some pa ->
              pa_volatility pa = None -> volatility conditions = 50)
        /\ (trendStrength visual = None -> trend_strength conditions = 50))
  /\ (ea_timing enhanced = None -> timing_analysis factors = JsObject "{}").
Proof.
  intros factors conditions. subst conditions factors.
  unfold buildFactors. simpl. split; [|split].
  - intros ->. auto.
  - intros visual ->. simpl. split; [|split].
    + intros ->. reflexivity.
    + intros pa -> Hpa. simpl. now rewrite Hpa.
    + intros ->. reflexivity.
  - intros ->. reflexivity.
Qed.


(** ** The whole cycle *)

Section CycleFacts.
Context {runtime : JsRuntime} {collaborators : Collaborators}.

Ltac unfold_hook :=
  unfold timer_callback, try_catch, try_block, catch_block, at_timer,
    mbind, M_bind, mret, M_ret, call, emit, setAiDecision, setIsProcessing;
  simpl.

Ltac split_outcomes :=
  repeat match goal with
         | |- context [makeAutonomousDecision ?f ?t ?m] =>
             destruct (makeAutonomousDecision f t m); simpl
         | |- context [bool_decide (?a <> WAIT)] =>
             destruct (bool_decide_reflect (a <> WAIT)); simpl
         | |- context [evaluateSignalRisk ?r] =>
             destruct (evaluateSignalRisk r); simpl
         | |- context [(5 <? ?n)%nat] => destruct (5 <? n)%nat; simpl
         | |- context [performBacktest ?l] =>
             destruct (performBacktest l); simpl
         end.

(** The callback returns, clears [isProcessing], stores the decision if
    one was computed, and only adds to the trace. *)
Lemma timer_callback_frame (p : Render) (factors : DecisionFactors)
    (w : World) :
  timer_callback p factors w
  = (Returned tt,
     {| hook :=
          {| aiDecision :=
               match makeAutonomousDecision factors (selectedTimeframe p)
                       (marketType p) with
               | Returned d => Some d
               | Thrown _ => aiDecision (hook w)
               end;
             isProcessing := false |};
        trace := trace w ++ callback_events p factors |}).
Proof.
  unfold callback_events. unfold_hook. split_outcomes;
    rewrite <- ?app_assoc; reflexivity.
Qed.

(** X14: every cycle that was scheduled settles, whatever the
    collaborators do: [isProcessing] ends false, one toast is shown, one
    timer was set, and the decision function was called once, with the
    captured factors, the selected timeframe and the market type. The
    risk evaluation and the backtest are each called at most once. *)
Theorem cycle_always_settles (p : Render) (s : HookState)
    (factors : DecisionFactors) :
  scheduled p = Some factors ->
  let after := run_cycle p s in
  isProcessing (hook after) = false
  /\ length (toasts (trace after)) = 1%nat
  /\ timeouts (trace after) = [1500%N]
  /\ decision_requests (trace after)
     = [(factors, selectedTimeframe p, marketType p)]
  /\ (length (risk_calls (trace after)) <= 1)%nat
  /\ (length (backtest_calls (trace after)) <= 1)%nat.
Proof.
  intros Hs after. subst after. rewrite (run_cycle_open p factors s Hs).
  unfold_hook. split_outcomes; repeat split; simpl; lia.
Qed.

(** X15: when the decision is computed and every enrichment that runs
    returns, the decision is stored and the one toast is the one that
    presents it, with the risk and the position size of the render. *)
Theorem successful_cycle (p : Render) (s : HookState)
    (factors : DecisionFactors) (d : AutonomousDecision) :
  scheduled p = Some factors ->
  all_return p factors d ->
  let after := run_cycle p s in
  aiDecision (hook after) = Some d
  /\ isProcessing (hook after) = false
  /\ toasts (trace after) = [present d (currentRisk p) (positionSizing p)].
Proof.
  intros Hs (Hd & Hrisk & Hback) after. subst after.
  rewrite (run_cycle_open p factors s Hs). unfold_hook. rewrite Hd. simpl.
  destruct (bool_decide_reflect (action d <> WAIT)) as [Ha|Ha]; simpl.
  - destruct Hrisk as [Hw|[v Hv]]; [contradiction|]. rewrite Hv. simpl.
    destruct (5 <? length (fastAnalysisResults p))%nat eqn:Hl; simpl; auto.
    destruct Hback as [Hle|Hb].
    + apply at_most_five in Hle. congruence.
    + rewrite Hb. simpl. auto.
  - destruct (5 <? length (fastAnalysisResults p))%nat eqn:Hl; simpl; auto.
    destruct Hback as [Hle|Hb].
    + apply at_most_five in Hle. congruence.
    + rewrite Hb. simpl. auto.
Qed.

(** X16: the order of a full cycle. For a decision other than WAIT with
    more than 5 fast results, when all collaborators return, the timer is
    set, then the decision function is called, then the risk evaluation,
    then the backtest, and the toast comes last. *)
Theorem full_cycle_sequence (p : Render) (s : HookState)
    (factors : DecisionFactors) (d : AutonomousDecision) (v : JsValue) :
  scheduled p = Some factors ->
  makeAutonomousDecision factors (selectedTimeframe p) (marketType p)
    = Returned d ->
  action d <> WAIT ->
  evaluateSignalRisk (risk_request p factors d) = Returned v ->
  (5 < length (fastAnalysisResults p))%nat ->
  performBacktest (List.map (backtest_input p) (fastAnalysisResults p))
    = Returned tt ->
  exists log1 log2,
    trace (run_cycle p s)
    = [ ConsoleLog log1;
        SetTimeout 1500;
        Call_makeAutonomousDecision factors (selectedTimeframe p) (marketType p);
        Call_evaluateSignalRisk (risk_request p factors d);
        ConsoleLog log2;
        Call_performBacktest
          (List.map (backtest_input p) (fastAnalysisResults p));
        Toast (present d (currentRisk p) (positionSizing p)) ].
Proof.
  intros Hs Hd Ha Hv Hl%more_than_five Hb.
  rewrite (run_cycle_open p factors s Hs). unfold_hook. rewrite Hd. simpl.
  rewrite (bool_decide_eq_true_2 _ Ha). simpl. rewrite Hv. simpl.
  rewrite Hl, Hb. simpl. eexists _, _. reflexivity.
Qed.

(** X17: every request the risk evaluation receives. Its decision is
    not WAIT and is the decision the cycle leaves stored; the entry price
    is 100; the stop is on the losing side and the take-profit on the
    winning side of it, twice as far; the timeframe is the selected one
    and the confluences are those of the decision. *)
Theorem risk_requests_are_well_formed (p : Render) (s : HookState)
    (r : RiskRequest) :
  r ∈ risk_calls (trace (run_cycle p s)) ->
  action (rq_decision r) <> WAIT
  /\ aiDecision (hook (run_cycle p s)) = Some (rq_decision r)
  /\ entry_price r = 100
  /\ Qabs (take_profit r - entry_price r)
     == 2 * Qabs (entry_price r - stop_loss r)
  /\ (action (rq_decision r) = BUY ->
        stop_loss r < entry_price r /\ entry_price r < take_profit r)
  /\ (action (rq_decision r) = SELL ->
        take_profit r < entry_price r /\ entry_price r < stop_loss r)
  /\ rq_timeframe r = selectedTimeframe p
  /\ rq_confluences r = confluences (professional_analysis (rq_decision r)).
Proof.
  destruct (scheduled p) as [factors|] eqn:Hs.
  2:{ rewrite (run_cycle_closed p s Hs). simpl. intros H.
      now apply elem_of_nil in H. }
  rewrite (run_cycle_open p factors s Hs). unfold_hook.
  destruct (makeAutonomousDecision _ _ _) as [d|e]; simpl.
  2:{ intros H. now apply elem_of_nil in H. }
  destruct (bool_decide_reflect (action d <> WAIT)) as [Ha|Ha]; simpl.
  2:{ destruct (5 <? length (fastAnalysisResults p))%nat; simpl;
        [destruct (performBacktest _); simpl|];
        intros H; now apply elem_of_nil in H. }
  assert (Hreq :
    r = risk_request p factors d ->
    action (rq_decision r) <> WAIT
    /\ entry_price r = 100
    /\ Qabs (take_profit r - entry_price r)
       == 2 * Qabs (entry_price r - stop_loss r)
    /\ (action (rq_decision r) = BUY ->
          stop_loss r < entry_price r /\ entry_price r < take_profit r)
    /\ (action (rq_decision r) = SELL ->
          take_profit r < entry_price r /\ entry_price r < stop_loss r)
    /\ rq_timeframe r = selectedTimeframe p
    /\ rq_confluences r
       = confluences (professional_analysis (rq_decision r))).
  { intros ->. unfold risk_request. simpl.
    destruct (bool_decide_reflect (action d = BUY)) as [Hb|Hb];
      repeat split; try assumption; try reflexivity; congruence. }
  destruct (evaluateSignalRisk _); simpl;
    [destruct (5 <? length (fastAnalysisResults p))%nat; simpl;
       [destruct (performBacktest _); simpl|]|];
    intros H; apply list_elem_of_singleton in H;
    destruct (Hreq H) as [H1 H2]; subst r;
    (split; [exact H1|]; split; [reflexivity|exact H2]).
Qed.

(** ** Two updates in a row *)

Lemma callback_events_summary (p : Render) (factors : DecisionFactors) :
  timeouts (callback_events p factors) = []
  /\ decision_requests (callback_events p factors)
     = [(factors, selectedTimeframe p, marketType p)]
  /\ length (toasts (callback_events p factors)) = 1%nat.
Proof.
  unfold callback_events. unfold_hook. split_outcomes; repeat split.
Qed.

Lemma both_timers_world (p1 p2 : Render) (f1 f2 : DecisionFactors)
    (s : HookState) :
  scheduled p1 = Some f1 -> scheduled p2 = Some f2 ->
  run (both_timers p1 p2) s
  = {| hook :=
         {| aiDecision :=
              match makeAutonomousDecision f2 (selectedTimeframe p2)
                      (marketType p2) with
              | Returned d2 => Some d2
              | Thrown _ =>
                  match makeAutonomousDecision f1 (selectedTimeframe p1)
                          (marketType p1) with
                  | Returned d1 => Some d1
                  | Thrown _ => aiDecision s
                  end
              end;
            isProcessing := false |};
       trace := trace (at_timer s) ++ trace (at_timer s)
                  ++ callback_events p1 f1 ++ callback_events p2 f2 |}.
Proof.
  intros H1 H2. unfold run, both_timers, mbind, M_bind.
  rewrite (effect_open p1 f1 _ H1), (effect_open p2 f2 _ H2).
  unfold fire. rewrite !timer_callback_frame. simpl.
  rewrite <- ?app_assoc. reflexivity.
Qed.

(** X18: two updates pass the guards before the first timer fires.
    Nothing cancels the first timer, so both callbacks run: two timers
    are set, the decision function is called for each update in turn,
    two toasts are shown and [isProcessing] ends false. The decision left
    stored is that of the second update if it was computed; if the second
    decision function throws, the decision of the first update stays. *)
Theorem last_to_finish_wins (p1 p2 : Render) (s : HookState)
    (f1 f2 : DecisionFactors) :
  scheduled p1 = Some f1 ->
  scheduled p2 = Some f2 ->
  let after := run (both_timers p1 p2) s in
  let decided1 :=
    makeAutonomousDecision f1 (selectedTimeframe p1) (marketType p1) in
  let decided2 :=
    makeAutonomousDecision f2 (selectedTimeframe p2) (marketType p2) in
  (forall d2, decided2 = Returned d2 -> aiDecision (hook after) = Some d2)
  /\ (forall d1 e,
        decided1 = Returned d1 -> decided2 = Thrown e ->
        aiDecision (hook after) = Some d1)
  /\ isProcessing (hook after) = false
  /\ timeouts (trace after) = [1500%N; 1500%N]
  /\ decision_requests (trace after)
     = [(f1, selectedTimeframe p1, marketType p1);
        (f2, selectedTimeframe p2, marketType p2)]
  /\ length (toasts (trace after)) = 2%nat.
Proof.
  intros H1 H2 after decided1 decided2. subst after decided1 decided2.
  rewrite (both_timers_world p1 p2 f1 f2 s H1 H2). cbn [hook trace aiDecision
    isProcessing].
  destruct (callback_events_summary p1 f1) as (Ht1 & Hd1 & Hn1).
  destruct (callback_events_summary p2 f2) as (Ht2 & Hd2 & Hn2).
  split; [|split; [|split; [|split; [|split]]]].
  - intros d2 ->. reflexivity.
  - intros d1 e -> ->. reflexivity.
  - reflexivity.
  - unfold timeouts in *. rewrite !omap_app, Ht1, Ht2. reflexivity.
  - unfold decision_requests in *. rewrite !omap_app, Hd1, Hd2. reflexivity.
  - unfold toasts in *. rewrite !omap_app, !length_app, Hn1, Hn2.
    reflexivity.
Qed.

(** X19: between the two callbacks the flag is already cleared. Once the
    first callback has run, [isProcessing] is false although the second
    timer is set and its decision has not been computed. *)
Theorem flag_cleared_while_pending (p1 p2 : Render) (s : HookState)
    (f1 f2 : DecisionFactors) :
  scheduled p1 = Some f1 ->
  scheduled p2 = Some f2 ->
  let between := run (first_timer p1 p2) s in
  isProcessing (hook between) = false
  /\ timeouts (trace between) = [1500%N; 1500%N]
  /\ decision_requests (trace between)
     = [(f1, selectedTimeframe p1, marketType p1)].
Proof.
  intros H1 H2 between. subst between.
  unfold run, first_timer, mbind, M_bind.
  rewrite (effect_open p1 f1 _ H1), (effect_open p2 f2 _ H2).
  unfold fire. rewrite timer_callback_frame. cbn [snd hook trace isProcessing].
  destruct (callback_events_summary p1 f1) as (Ht1 & Hd1 & _).
  split; [reflexivity|]. split.
  - unfold timeouts in *. rewrite !omap_app, Ht1. reflexivity.
  - unfold decision_requests in *. rewrite !omap_app, Hd1. reflexivity.
Qed.

(** X20: an update that stops at a guard cancels nothing. When a cycle
    is scheduled and the next update (or the one before) has too little
    data, the scheduled callback still runs, exactly as if the other
    update had not happened. *)
Theorem gated_update_does_not_cancel (p1 p2 : Render) (s : HookState)
    (f1 : DecisionFactors) :
  scheduled p1 = Some f1 ->
  scheduled p2 = None ->
  run (both_timers p1 p2) s = run_cycle p1 s
  /\ run (both_timers p2 p1) s = run_cycle p1 s.
Proof.
  intros H1 H2. unfold run, run_cycle, both_timers, cycle, mbind, M_bind.
  split.
  - rewrite (effect_open p1 f1 _ H1), (effect_closed p2 _ H2).
    unfold fire, mret, M_ret. now destruct (timer_callback p1 f1 _) as [[]].
  - rewrite (effect_closed p2 _ H2), (effect_open p1 f1 _ H1).
    unfold fire, mret, M_ret. now destruct (timer_callback p1 f1 _) as [[]].
Qed.

End CycleFacts.

(** ** What the risk evaluation returns *)

(** X21: the value [evaluateSignalRisk] returns is logged and nothing
    more. With another value returned, the cycle ends in the same state,
    shows the same toast, whose risk text is that of the render, and
    makes the same backtest call. *)
Theorem risk_result_is_not_used {runtime : JsRuntime}
    (c1 c2 : Collaborators) (p : Render) (s : HookState) :
  same_but_risk_value c1 c2 ->
  let after1 := @run_cycle runtime c1 p s in
  let after2 := @run_cycle runtime c2 p s in
  hook after1 = hook after2
  /\ toasts (trace after1) = toasts (trace after2)
  /\ backtest_calls (trace after1) = backtest_calls (trace after2).
Proof.
  intros (Hd & Hb & Hr) after1 after2. subst after1 after2.
  destruct (scheduled p) as [factors|] eqn:Hs.
  2:{ now rewrite !(run_cycle_closed p s Hs). }
  rewrite !(run_cycle_open p factors s Hs).
  unfold timer_callback, try_catch, try_block, catch_block, at_timer,
    mbind, M_bind, mret, M_ret, call, emit, setAiDecision, setIsProcessing.
  simpl. rewrite <- Hd.
  destruct (@makeAutonomousDecision c1 factors _ _) as [d|e]; simpl;
    [|repeat split].
  destruct (bool_decide_reflect (action d <> WAIT)) as [Ha|Ha]; simpl.
  - destruct (Hr (risk_request p factors d))
      as [(v1 & v2 & -> & ->)|(e & -> & ->)]; simpl; [|repeat split].
    rewrite <- Hb.
    destruct (5 <? length (fastAnalysisResults p))%nat; simpl;
      [destruct (@performBacktest c1 _); simpl|]; repeat split.
  - rewrite <- Hb.
    destruct (5 <? length (fastAnalysisResults p))%nat; simpl;
      [destruct (@performBacktest c1 _); simpl|]; repeat split.
Qed.

Lemma risk_result_is_not_used_witness :
  let other :=
    {| makeAutonomousDecision := fun _ _ _ => Returned buy_now_80;
       evaluateSignalRisk := fun _ => Returned (JsNumber 7);
       performBacktest := fun _ => Returned tt |} in
  toasts (trace (@run_cycle integer_runtime (steady buy_now_80) sample_render
                   initial_state))
  = toasts (trace (@run_cycle integer_runtime other sample_render
                     initial_state)).
Proof.
  intros other.
  destruct (@risk_result_is_not_used integer_runtime (steady buy_now_80) other
              sample_render initial_state) as (_ & Ht & _); [|exact Ht].
  split; [reflexivity|]. split; [reflexivity|].
  intros r. left. exists (JsObject "{}"), (JsNumber 7). split; reflexivity.
Defined.

(** ** Instances of the further properties on the sample data *)

Lemma effect_sets_timer_witness :
  let after := snd (effect sample_render {| hook := initial_state; trace := [] |}) in
  hook after = {| aiDecision := None; isProcessing := true |}
  /\ exists message, trace after = [] ++ [ConsoleLog message; SetTimeout 1500].
Proof.
  apply (effect_sets_timer sample_render {| hook := initial_state; trace := [] |}
           {[ "rsi"%string := found_balanced ]} sample_enhanced []);
    try reflexivity.
  apply insert_non_empty.
Defined.

Lemma factors_defaults_witness :
  let conditions :=
    market_conditions
      (buildFactors later_render two_indicators
         {| microPatterns := Some [JsString "pin-bar"];
            visualAnalysis := None;
            ea_timing := None |}) in
  volatility conditions = 50 /\ trend_strength conditions = 50.
Proof.
  destruct (factors_defaults later_render two_indicators
              {| microPatterns := Some [JsString "pin-bar"];
                 visualAnalysis := None;
                 ea_timing := None |}) as [Hmissing _].
  destruct (Hmissing eq_refl) as (_ & Hv & Ht). split; [exact Hv|exact Ht].
Defined.

Lemma cycle_always_settles_witness :
  let after :=
    @run_cycle integer_runtime (failing_backtest buy_now_80) sample_render
      initial_state in
  isProcessing (hook after) = false
  /\ length (toasts (trace after)) = 1%nat
  /\ timeouts (trace after) = [1500%N]
  /\ decision_requests (trace after) = [(sample_factors, "1m"%string, "otc"%string)]
  /\ (length (risk_calls (trace after)) <= 1)%nat
  /\ (length (backtest_calls (trace after)) <= 1)%nat.
Proof.
  apply (@cycle_always_settles integer_runtime (failing_backtest buy_now_80)
           sample_render initial_state sample_factors).
  reflexivity.
Defined.

Lemma successful_cycle_witness :
  let after :=
    @run_cycle integer_runtime (steady wait_40) sample_render initial_state in
  aiDecision (hook after) = Some wait_40
  /\ isProcessing (hook after) = false
  /\ toasts (trace after) = [@present integer_runtime wait_40 None None].
Proof.
  apply (@successful_cycle integer_runtime (steady wait_40) sample_render
           initial_state sample_factors wait_40); [reflexivity|].
  split; [reflexivity|]. split; [left; reflexivity|right; reflexivity].
Defined.

Lemma full_cycle_sequence_witness :
  exists log1 log2,
    trace (@run_cycle integer_runtime (steady buy_now_80) sample_render
             initial_state)
    = [ ConsoleLog log1;
        SetTimeout 1500;
        Call_makeAutonomousDecision sample_factors "1m" "otc";
        Call_evaluateSignalRisk
          (risk_request sample_render sample_factors buy_now_80);
        ConsoleLog log2;
        Call_performBacktest
          (List.map (backtest_input sample_render) six_results);
        Toast (@present integer_runtime buy_now_80 None None) ].
Proof.
  apply (@full_cycle_sequence integer_runtime (steady buy_now_80)
           sample_render initial_state sample_factors buy_now_80
           (JsObject "{}")); try reflexivity.
  - discriminate.
  - simpl. lia.
Defined.

Lemma risk_requests_are_well_formed_witness :
  let r := risk_request sample_render sample_factors buy_now_80 in
  stop_loss r < entry_price r /\ entry_price r < take_profit r.
Proof.
  intros r.
  destruct (@risk_requests_are_well_formed integer_runtime (steady buy_now_80)
              sample_render initial_state r)
    as (_ & _ & _ & _ & Hbuy & _).
  - change (r ∈ [r]). apply list_elem_of_singleton. reflexivity.
  - apply Hbuy. reflexivity.
Defined.

Lemma last_to_finish_wins_witness :
  aiDecision
    (hook (run
             (@both_timers integer_runtime by_timeframe sample_render later_render)
             initial_state))
  = Some sell_later_60.
Proof.
  destruct (@last_to_finish_wins integer_runtime by_timeframe sample_render
              later_render initial_state sample_factors
              (buildFactors later_render two_indicators
                 {| microPatterns := Some [JsString "pin-bar"];
                    visualAnalysis := None;
                    ea_timing := None |})
              eq_refl eq_refl) as [Hsecond _].
  apply Hsecond. reflexivity.
Defined.

Lemma flag_cleared_while_pending_witness :
  let between :=
    run
      (@first_timer integer_runtime by_timeframe sample_render later_render)
      initial_state in
  isProcessing (hook between) = false
  /\ timeouts (trace between) = [1500%N; 1500%N]
  /\ decision_requests (trace between)
     = [(sample_factors, "1m"%string, "otc"%string)].
Proof.
  apply (@flag_cleared_while_pending integer_runtime by_timeframe
           sample_render later_render initial_state sample_factors
           (buildFactors later_render two_indicators
              {| microPatterns := Some [JsString "pin-bar"];
                 visualAnalysis := None;
                 ea_timing := None |})); reflexivity.
Defined.

Lemma gated_update_does_not_cancel_witness :
  run
      (@both_timers integer_runtime (steady buy_now_80) sample_render idle_render)
      initial_state
    = @run_cycle integer_runtime (steady buy_now_80) sample_render initial_state
  /\ run
       (@both_timers integer_runtime (steady buy_now_80) idle_render sample_render)
       initial_state
     = @run_cycle integer_runtime (steady buy_now_80) sample_render initial_state.
Proof.
  apply (@gated_update_does_not_cancel integer_runtime (steady buy_now_80)
           sample_render idle_render initial_state sample_factors);
    reflexivity.
Defined.
